(** * Health monitor and model resolver of [server.js]

    A shallow embedding of the two parts of [server.js] that carry state and
    decisions: the health monitoring loop ([updateAllModelsHealth], lines
    67-78) and the handler of [POST /api/resolve-model] (lines 87-121),
    together with the two module-level objects they work on
    ([simulationConfigs], lines 14-27, and [modelHealthStatus], lines 30-33).

    The two objects are plain JavaScript objects used as maps from strings;
    they are modelled as [gmap string _] for their own properties, and a
    property read goes through [Js.get], which also accounts for the
    properties every plain object inherits from [Object.prototype].
    [console.log] calls only write to the console and are left out. *)

From Stdlib Require Import QArith Qcanon.
From stdpp Require Import gmap strings numbers.

Close Scope Qc_scope.
Close Scope Q_scope.
Open Scope string_scope.

(** ** The fragment of the JavaScript runtime the code relies on *)

Module Js.

(** A JavaScript number, as far as [<] is concerned: a finite value (every
    finite double is a rational), [NaN], or one of the two infinities. *)
Inductive number : Type :=
| Finite (q : Qc)
| NaN
| PosInfinity
| NegInfinity.

(** [x < y] on numbers: any comparison with [NaN] is [false]. *)
Definition lt (x y : number) : bool :=
  match x, y with
  | NaN, _ | _, NaN => false
  | Finite a, Finite b => bool_decide (a < b)%Qc
  | Finite _, PosInfinity => true
  | Finite _, NegInfinity => false
  | PosInfinity, _ => false
  | NegInfinity, NegInfinity => false
  | NegInfinity, _ => true
  end.

(** The property names a plain object [{...}] inherits from
    [Object.prototype]. None of them is enumerable, so [for ... in] does
    not visit them, but a read [o[key]] finds them. *)
Definition Object_prototype : list string :=
  [ "constructor"; "hasOwnProperty"; "isPrototypeOf";
    "propertyIsEnumerable"; "toLocaleString"; "toString"; "valueOf";
    "__proto__"; "__defineGetter__"; "__defineSetter__";
    "__lookupGetter__"; "__lookupSetter__" ].

(** The outcome of a property read [o[key]] on a plain object whose own
    properties hold values of type [A]: the own value, a value inherited
    from [Object.prototype] (a function, or the prototype object itself
    for [__proto__]: truthy, and without any of the fields the code reads),
    or [undefined]. *)
Inductive prop (A : Type) : Type :=
| undefined
| inherited (key : string)
| own (a : A).
Arguments undefined {A}.
Arguments inherited {A} key.
Arguments own {A} a.

Definition get {A : Type} (o : gmap string A) (key : string) : prop A :=
  match o !! key with
  | Some a => own a
  | None =>
      if bool_decide (key ∈ Object_prototype) then inherited key
      else undefined
  end.

(** A string value that may be [undefined] (a missing field of the request
    body, a field read on an inherited value) is an [option string].
    [truthy]: [undefined] and the empty string are falsy. *)
Definition truthy (v : option string) : bool :=
  match v with
  | None => false
  | Some s => bool_decide (s ≠ "")
  end.

(** The property key a value converts to when used in [o[v]]. *)
Definition to_key (v : option string) : string :=
  match v with
  | None => "undefined"
  | Some s => s
  end.

(** The own enumerable keys [for (const k in o)] visits, each once. The
    order in which JavaScript visits them is not modelled (the list comes in
    the order of the map); nothing below depends on it. *)
Definition for_in {A : Type} (o : gmap string A) : list string :=
  (map_to_list o).*1.

End Js.

(** ** Configuration (lines 7-8)

    The period is what [setInterval] is given at line 130; timers are not
    part of this development, which takes the order in which probes complete
    and requests arrive as given (see [Event] below). *)

Definition HEALTH_CHECK_INTERVAL_MS : Z := 10000.
Definition LATENCY_THRESHOLD_MS : Js.number := Js.Finite (Qc_of_Z 1500).

(** ** In-memory state (lines 14-33) *)

Record SimulationConfig : Type := {
  id : string;
  name : string;
  primaryModel : string;
  secondaryModel : string;
}.

Inductive Status : Type := UNKNOWN | HEALTHY | UNHEALTHY.

(** One entry of [modelHealthStatus]; [latency] is [null] ([None]) or a
    number. *)
Record ModelHealth : Type := {
  status : Status;
  latency : option Js.number;
}.

#[global] Instance Status_eq_dec : EqDecision Status.
Proof. solve_decision. Defined.

Definition simulationConfigs : gmap string SimulationConfig :=
  <[ "sim-101-finance" :=
       {| id := "sim-101-finance";
          name := "Financial Analyst Interview";
          primaryModel := "gpt-4o";
          secondaryModel := "claude-3-sonnet" |} ]>
  (<[ "sim-202-engineering" :=
       {| id := "sim-202-engineering";
          name := "Software Engineer Interview";
          primaryModel := "claude-3-sonnet";
          secondaryModel := "gpt-4o" |} ]> ∅).

Definition modelHealthStatus : gmap string ModelHealth :=
  <[ "gpt-4o" := {| status := UNKNOWN; latency := None |} ]>
  (<[ "claude-3-sonnet" := {| status := UNKNOWN; latency := None |} ]> ∅).

(** The two objects as the state both components run against. The code
    never assigns to [simulationConfigs]; it is kept in the store so that
    this can be stated. *)
Record Store : Type := {
  configs : gmap string SimulationConfig;
  health : gmap string ModelHealth;
}.

Definition initial : Store :=
  {| configs := simulationConfigs; health := modelHealthStatus |}.

(** ** Health checker (lines 43-60) *)

Module Probe.

(** What the promise of [mockCheckLLMHealth] resolves to. *)
Record Result : Type := {
  success : bool;
  latency : Js.number;
}.

End Probe.

(** The results the promise of [mockCheckLLMHealth modelName] can resolve
    to; it is never rejected. The draws of [Math.random] are not modelled,
    only what they leave open: a failure with a latency of
    [5000 + Math.random() * 1000], between 5000 and 6000, or a success with
    a latency of [Math.round(100 + Math.random() * 400)], an integer between
    100 and 500. The monitor below takes the outcome of each probe as an
    input, whether it is one of these or not. *)
Inductive mockCheckLLMHealth (modelName : string) : Probe.Result → Prop :=
| mock_failure (q : Qc) :
    (Qc_of_Z 5000 ≤ q)%Qc → (q ≤ Qc_of_Z 6000)%Qc →
    mockCheckLLMHealth modelName
      {| Probe.success := false; Probe.latency := Js.Finite q |}
| mock_success (n : Z) :
    (100 ≤ n ≤ 500)%Z →
    mockCheckLLMHealth modelName
      {| Probe.success := true; Probe.latency := Js.Finite (Qc_of_Z n) |}.

(** ** Health monitoring (lines 67-78) *)

(** The entry the loop body builds from a probe result (lines 70-76): both
    branches make a fresh record carrying the result's latency. *)
Definition classify (result : Probe.Result) : ModelHealth :=
  if Probe.success result && Js.lt (Probe.latency result) LATENCY_THRESHOLD_MS
  then {| status := HEALTHY; latency := Some (Probe.latency result) |}
  else {| status := UNHEALTHY; latency := Some (Probe.latency result) |}.

(** One iteration of the loop, once the awaited probe has completed:
    [modelHealthStatus[modelName] = { status: ..., latency: ... }], where
    [modelName] is a key the loop found in the table, so that the assignment
    replaces the value of an own property. *)
Definition probe_completed (st : Store) (modelName : string)
    (result : Probe.Result) : Store :=
  {| configs := configs st;
     health := <[ modelName := classify result ]> (health st) |}.

(** [updateAllModelsHealth], run without interruption: [probe] gives the
    outcome of this cycle's probe of each model. *)
Definition updateAllModelsHealth (probe : string → Probe.Result)
    (st : Store) : Store :=
  foldl (λ st modelName, probe_completed st modelName (probe modelName))
        st (Js.for_in (health st)).

(** ** The resolver endpoint (lines 87-121) *)

(** The [reason] texts are template literals around the values they
    interpolate; a reason is kept as the template and its values. *)
Inductive Reason : Type :=
| reason_healthy (primaryModel : option string)
| reason_unhealthy (primaryModel : option string)
    (health : Js.prop ModelHealth).

Record ResolutionResult : Type := {
  modelToUse : option string;
  fallbackOccurred : bool;
  reason : Reason;
  details : Js.prop ModelHealth;
}.

(** What a request ends in: a response of the handler, or the exception it
    threw. *)
Inductive Response : Type :=
| status_400 (error : string)
| status_404 (error : string)
| json (body : ResolutionResult)
| TypeError.

(** [config.primaryModel] and [config.secondaryModel], where [config] is
    what the read of [simulationConfigs] gave. *)
Definition field (f : SimulationConfig → string)
    (config : Js.prop SimulationConfig) : option string :=
  match config with
  | Js.own c => Some (f c)
  | _ => None
  end.

(** The handler. [simulationId] is the field of the parsed request body: a
    string, or [None] when the body has no such field. An exception thrown
    by the handler ends the request ([TypeError]). The store is threaded
    through to show what the handler writes. *)
Definition resolve_model (st : Store) (simulationId : option string)
    : Response * Store :=
  if negb (Js.truthy simulationId) then
    (status_400 "simulationId is required", st)
  else
    match Js.get (configs st) (Js.to_key simulationId) with
    | Js.undefined =>
        (status_404 ("Simulation config for '" ++ Js.to_key simulationId
                       ++ "' not found."), st)
    | config =>
        let primary := field primaryModel config in
        match Js.get (health st) (Js.to_key primary) with
        | Js.undefined => (TypeError, st)
        | Js.own h as entry =>
            if decide (status h = HEALTHY) then
              (json {| modelToUse := primary;
                       fallbackOccurred := false;
                       reason := reason_healthy primary;
                       details := entry |}, st)
            else
              (json {| modelToUse := field secondaryModel config;
                       fallbackOccurred := true;
                       reason := reason_unhealthy primary entry;
                       details := entry |}, st)
        | Js.inherited _ as entry =>
            (json {| modelToUse := field secondaryModel config;
                     fallbackOccurred := true;
                     reason := reason_unhealthy primary entry;
                     details := entry |}, st)
        end
    end.

(** ** Interleavings

    [updateAllModelsHealth] awaits each probe, so requests are served between
    two iterations of its loop, and a cycle started by the timer can begin
    while another one is suspended. Whatever the schedule, the store changes
    through a sequence of completed probes and served requests. *)
Inductive Event : Type :=
| completed (modelName : string) (result : Probe.Result)
| request (simulationId : option string).

Definition step (st : Store) (e : Event) : Store :=
  match e with
  | completed modelName result => probe_completed st modelName result
  | request simulationId => snd (resolve_model st simulationId)
  end.

Definition run (st : Store) (events : list Event) : Store :=
  foldl step st events.

(** The result of the latest completed probe of [modelName], if any. *)
Fixpoint last_probe (modelName : string) (events : list Event)
    : option Probe.Result :=
  match events with
  | [] => None
  | e :: events =>
      match last_probe modelName events with
      | Some r => Some r
      | None =>
          match e with
          | completed m r => if decide (m = modelName) then Some r else None
          | request _ => None
          end
      end
  end.

(** The probes of one uninterrupted cycle, in the order the loop makes them. *)
Definition cycle_events (probe : string → Probe.Result)
    (table : gmap string ModelHealth) : list Event :=
  (λ modelName, completed modelName (probe modelName)) <$> Js.for_in table.

(** Cycles run one after the other, each to its end before the next one
    starts; [probes] gives the outcomes of each cycle's probes. *)
Definition cycles (st : Store) (probes : list (string → Probe.Result))
    : Store :=
  foldl (λ st probe, updateAllModelsHealth probe st) st probes.

(** The stores the running program can be in: it starts from the two
    literals, the monitor only writes entries of keys its [for ... in]
    found in the table, and requests are served in between. *)
Inductive reachable : Store → Prop :=
| reachable_initial : reachable initial
| reachable_completed st modelName result :
    reachable st →
    modelName ∈ Js.for_in (health st) →
    reachable (probe_completed st modelName result)
| reachable_request st simulationId :
    reachable st →
    reachable (resolve_model st simulationId).2.

(** ** Stores used as examples *)

(** A config set the code does not ship, with a simulation whose primary
    model has no entry in [modelHealthStatus]. *)
Definition legal_config : SimulationConfig :=
  {| id := "sim-303-legal";
     name := "Paralegal Interview";
     primaryModel := "gemini-pro";
     secondaryModel := "gpt-4o" |}.

Definition unregistered_primary : Store :=
  {| configs := <[ "sim-303-legal" := legal_config ]> simulationConfigs;
     health := modelHealthStatus |}.

(** What the spec expects of a simulation whose primary model has no entry:
    the request is answered with a fallback, no error is raised. *)
Definition reads_as_unknown (st : Store) (simulationId : string) : Prop :=
  ∃ r, (resolve_model st (Some simulationId)).1 = json r
       ∧ fallbackOccurred r = true.

(** A cycle in which the probe of [gpt-4o] fails and every other probe
    succeeds in 120 ms. *)
Definition one_fails (modelName : string) : Probe.Result :=
  if decide (modelName = "gpt-4o") then
    {| Probe.success := false;
       Probe.latency := Js.Finite (Qc_of_Z 5200) |}
  else
    {| Probe.success := true;
       Probe.latency := Js.Finite (Qc_of_Z 120) |}.

(** ** The loop and the schedule, taken apart *)

(** The loop of [updateAllModelsHealth] visiting the keys [models] in the
    order of the list; [updateAllModelsHealth probe st] is
    [probe_each probe st (Js.for_in (health st))]. *)
Definition probe_each (probe : string → Probe.Result) (st : Store)
    (models : list string) : Store :=
  foldl (λ st modelName, probe_completed st modelName (probe modelName))
        st models.

(** A sequence of events without the served requests. *)
Fixpoint drop_requests (events : list Event) : list Event :=
  match events with
  | [] => []
  | completed modelName result :: events =>
      completed modelName result :: drop_requests events
  | request _ :: events => drop_requests events
  end.

(** A cycle of [one_fails] on the initial table with requests served before,
    between and after its two probes. *)
Definition cycle_under_load : list Event :=
  [ request (Some "sim-101-finance");
    completed "gpt-4o" (one_fails "gpt-4o");
    request (Some "sim-202-engineering");
    request None;
    completed "claude-3-sonnet" (one_fails "claude-3-sonnet");
    request (Some "constructor") ].

(** * Properties *)

(** ** Property reads *)

Section Reads.
Context {A : Type}.
Implicit Types (o : gmap string A) (key : string).

Lemma get_own o key a : o !! key = Some a → Js.get o key = Js.own a.
Proof. unfold Js.get. by intros ->. Qed.

Lemma get_absent o key :
  o !! key = None → key ∉ Js.Object_prototype → Js.get o key = Js.undefined.
Proof.
  unfold Js.get. intros -> Hkey. by rewrite bool_decide_eq_false_2.
Qed.

Lemma get_inherited o key :
  o !! key = None → key ∈ Js.Object_prototype →
  Js.get o key = Js.inherited key.
Proof.
  unfold Js.get. intros -> Hkey. by rewrite bool_decide_eq_true_2.
Qed.

Lemma get_own_inv o key a : Js.get o key = Js.own a → o !! key = Some a.
Proof.
  unfold Js.get. destruct (o !! key); [congruence |].
  by case_bool_decide.
Qed.

(** [for ... in] visits exactly the keys that have an own entry. *)
Lemma elem_of_for_in o key : key ∈ Js.for_in o ↔ is_Some (o !! key).
Proof.
  unfold Js.for_in. rewrite list_elem_of_fmap. split.
  - intros [[k a] [-> Hka]]. apply elem_of_map_to_list in Hka. by exists a.
  - intros [a Ha]. exists (key, a). split; [done |].
    by apply elem_of_map_to_list.
Qed.

Lemma NoDup_for_in o : NoDup (Js.for_in o).
Proof. apply NoDup_fst_map_to_list. Qed.

End Reads.

Lemma truthy_Some (s : string) : s ≠ "" → Js.truthy (Some s) = true.
Proof. intros Hs. simpl. by rewrite bool_decide_eq_true_2. Qed.

(** ** The resolver, case by case *)

(** The request reaches the health table: the id is non-empty and has an own
    config, and the primary model has an own entry. *)
Lemma resolve_model_own st simulationId config h :
  simulationId ≠ "" →
  configs st !! simulationId = Some config →
  health st !! primaryModel config = Some h →
  resolve_model st (Some simulationId) =
    (json (if decide (status h = HEALTHY) then
             {| modelToUse := Some (primaryModel config);
                fallbackOccurred := false;
                reason := reason_healthy (Some (primaryModel config));
                details := Js.own h |}
           else
             {| modelToUse := Some (secondaryModel config);
                fallbackOccurred := true;
                reason := reason_unhealthy (Some (primaryModel config))
                                           (Js.own h);
                details := Js.own h |}), st).
Proof.
  intros Hid Hconfig Hh. unfold resolve_model.
  rewrite truthy_Some by done. simpl.
  rewrite (get_own _ _ _ Hconfig). simpl.
  rewrite (get_own _ _ _ Hh).
  by destruct (decide (status h = HEALTHY)).
Qed.

(** The handler never writes to the store. *)
Lemma resolve_model_store st simulationId :
  (resolve_model st simulationId).2 = st.
Proof.
  unfold resolve_model.
  destruct (negb (Js.truthy simulationId)); [done |].
  destruct (Js.get (configs st) _); [done | |];
    destruct (Js.get (health st) _); try done;
    by destruct (decide _).
Qed.

(** The response depends on the health table only through the read of the
    primary model's key. *)
Lemma resolve_model_reads st table simulationId :
  let key := Js.to_key (field primaryModel
                          (Js.get (configs st) (Js.to_key simulationId))) in
  table !! key = health st !! key →
  (resolve_model {| configs := configs st; health := table |}
                 simulationId).1
  = (resolve_model st simulationId).1.
Proof.
  intros key Hkey. unfold resolve_model. simpl.
  destruct (negb (Js.truthy simulationId)); [done |].
  destruct (Js.get (configs st) (Js.to_key simulationId)) as [|k|c] eqn:Hc;
    [done | |];
    subst key; simpl in *; unfold Js.get; rewrite Hkey;
    destruct (health st !! _); try done;
    try (by destruct (decide _));
    by case_bool_decide.
Qed.

(** ** The monitor, probe by probe *)

Lemma lt_threshold_finite (q : Qc) :
  Js.lt (Js.Finite q) LATENCY_THRESHOLD_MS = true ↔ (q < Qc_of_Z 1500)%Qc.
Proof. simpl. apply bool_decide_eq_true. Qed.

Lemma classify_latency result :
  latency (classify result) = Some (Probe.latency result).
Proof. unfold classify. by destruct (_ && _). Qed.

Lemma classify_status result :
  status (classify result) =
    if Probe.success result
       && Js.lt (Probe.latency result) LATENCY_THRESHOLD_MS
    then HEALTHY else UNHEALTHY.
Proof. unfold classify. by destruct (_ && _). Qed.

Lemma classify_known result : status (classify result) ≠ UNKNOWN.
Proof. rewrite classify_status. by destruct (_ && _). Qed.

Lemma classify_failure result :
  Probe.success result = false → status (classify result) = UNHEALTHY.
Proof. intros H. by rewrite classify_status, H. Qed.

(** With the checker of the source a probe that succeeds is always fast
    enough, so the status stored says whether the probe succeeded. *)
Lemma classify_mock modelName result :
  mockCheckLLMHealth modelName result →
  status (classify result)
  = (if Probe.success result then HEALTHY else UNHEALTHY)
  ∧ ∃ q, latency (classify result) = Some (Js.Finite q).
Proof.
  intros [q Hlow Hhigh | n [Hlow Hhigh]];
    rewrite classify_status, classify_latency;
    unfold LATENCY_THRESHOLD_MS;
    cbn [Probe.success Probe.latency Js.lt andb];
    (split; [| by eexists]).
  - done.
  - rewrite bool_decide_eq_true_2; [done |].
    apply (proj1 (Z2Qc_inj_lt n 1500)). lia.
Qed.

Lemma step_configs st e : configs (step st e) = configs st.
Proof.
  destruct e as [m r|simulationId]; simpl; [done |].
  by rewrite resolve_model_store.
Qed.

Lemma run_configs events : ∀ st, configs (run st events) = configs st.
Proof.
  induction events as [|e events IH]; intros st; simpl; [done |].
  unfold run in IH. by rewrite IH, step_configs.
Qed.

(** After any sequence of events an entry is the classification of the
    latest completed probe of its model, or what it was at the start. *)
Lemma run_lookup events : ∀ st modelName,
  health (run st events) !! modelName =
    match last_probe modelName events with
    | Some result => Some (classify result)
    | None => health st !! modelName
    end.
Proof.
  induction events as [|e events IH]; intros st modelName; simpl; [done |].
  unfold run in IH. rewrite IH.
  destruct (last_probe modelName events) as [r|]; [done |].
  destruct e as [m r|simulationId]; simpl.
  - destruct (decide (m = modelName)) as [->|Hne].
    + by rewrite lookup_insert_eq.
    + by rewrite lookup_insert_ne.
  - by rewrite resolve_model_store.
Qed.

Lemma last_probe_cycle probe modelName (models : list string) :
  last_probe modelName
    ((λ m, completed m (probe m)) <$> models) =
    if decide (modelName ∈ models) then Some (probe modelName) else None.
Proof.
  induction models as [|m models IH]; [done |].
  rewrite fmap_cons. cbn [last_probe].
  rewrite IH. destruct (decide (modelName ∈ models)) as [Hin|Hnin].
  - rewrite decide_True; [done | by right].
  - destruct (decide (m = modelName)) as [->|Hne].
    + rewrite decide_True; [done | by left].
    + rewrite decide_False; [done |].
      intros [->|?]%elem_of_cons; done.
Qed.

(** An uninterrupted cycle is the run of its probes. *)
Lemma updateAllModelsHealth_run probe st :
  updateAllModelsHealth probe st = run st (cycle_events probe (health st)).
Proof.
  unfold updateAllModelsHealth, run, cycle_events.
  by rewrite foldl_fmap.
Qed.

Lemma updateAllModelsHealth_lookup probe st modelName :
  health (updateAllModelsHealth probe st) !! modelName =
    match health st !! modelName with
    | Some _ => Some (classify (probe modelName))
    | None => None
    end.
Proof.
  rewrite updateAllModelsHealth_run, run_lookup.
  unfold cycle_events. rewrite last_probe_cycle.
  destruct (decide (modelName ∈ Js.for_in (health st))) as [Hin|Hnin].
  - apply elem_of_for_in in Hin as [h ->]. done.
  - rewrite elem_of_for_in in Hnin.
    destruct (health st !! modelName) eqn:E; [|done].
    exfalso. apply Hnin. by eexists.
Qed.

Lemma updateAllModelsHealth_configs probe st :
  configs (updateAllModelsHealth probe st) = configs st.
Proof. by rewrite updateAllModelsHealth_run, run_configs. Qed.

Lemma updateAllModelsHealth_dom probe st :
  dom (health (updateAllModelsHealth probe st)) = dom (health st).
Proof.
  apply set_eq. intros modelName. rewrite !elem_of_dom.
  rewrite updateAllModelsHealth_lookup.
  destruct (health st !! modelName); split; intros [? ?]; by eexists.
Qed.

(** ** The resolver *)

Lemma resolve_model_details st simulationId r :
  (resolve_model st simulationId).1 = json r →
  details r =
    Js.get (health st)
      (Js.to_key (field primaryModel
                    (Js.get (configs st) (Js.to_key simulationId)))).
Proof.
  unfold resolve_model.
  destruct (negb (Js.truthy simulationId)); [done |].
  destruct (Js.get (configs st) _); [done | |];
    destruct (Js.get (health st) _); try done;
    try destruct (decide _); simpl; by intros [= <-].
Qed.

(** C1. For a simulation id that has a config (and so is not empty, the
    handler turning an empty id away first) and whose primary model has an
    entry in the health table, the handler answers with a ResolutionResult;
    it reports a fallback exactly when the entry's status is not HEALTHY,
    then names the secondary model, and otherwise reports no fallback and
    names the primary model. *)
Theorem fallback_law st simulationId config h :
  simulationId ≠ "" →
  configs st !! simulationId = Some config →
  health st !! primaryModel config = Some h →
  ∃ r, (resolve_model st (Some simulationId)).1 = json r
    ∧ (fallbackOccurred r = true ↔ status h ≠ HEALTHY)
    ∧ (fallbackOccurred r = true
       ∧ modelToUse r = Some (secondaryModel config) ↔ status h ≠ HEALTHY)
    ∧ (status h = HEALTHY →
       fallbackOccurred r = false
       ∧ modelToUse r = Some (primaryModel config)).
Proof.
  intros Hid Hconfig Hh.
  rewrite (resolve_model_own _ _ _ _ Hid Hconfig Hh).
  eexists. split; [reflexivity |].
  destruct (decide (status h = HEALTHY)) as [Heq|Hne]; simpl.
  - repeat split; try done; intros; try tauto; destruct_and?; done.
  - repeat split; try done.
Qed.

Lemma fallback_law_witness :
  ∃ r, (resolve_model initial (Some "sim-101-finance")).1 = json r
    ∧ (fallbackOccurred r = true ↔ UNKNOWN ≠ HEALTHY)
    ∧ (fallbackOccurred r = true
       ∧ modelToUse r = Some "claude-3-sonnet" ↔ UNKNOWN ≠ HEALTHY)
    ∧ (UNKNOWN = HEALTHY →
       fallbackOccurred r = false ∧ modelToUse r = Some "gpt-4o").
Proof.
  apply (fallback_law initial "sim-101-finance"
           {| id := "sim-101-finance";
              name := "Financial Analyst Interview";
              primaryModel := "gpt-4o";
              secondaryModel := "claude-3-sonnet" |}
           {| status := UNKNOWN; latency := None |}).
  - done.
  - vm_compute. reflexivity.
  - vm_compute. reflexivity.
Defined.

(** C3. Whenever the handler answers with a ResolutionResult, on the healthy
    path as on the fallback path, [details] is what the read of the primary
    model's key in the health table gave. The answer is the same for every
    health table that agrees on that one key: in particular writing any
    entry for the secondary model, or removing its entry, changes nothing,
    so the secondary's health is not read. *)
Theorem details_is_primary_entry st simulationId config r :
  configs st !! simulationId = Some config →
  (resolve_model st (Some simulationId)).1 = json r →
  details r = Js.get (health st) (primaryModel config)
  ∧ (∀ table,
       table !! primaryModel config = health st !! primaryModel config →
       (resolve_model {| configs := configs st; health := table |}
                      (Some simulationId)).1 = json r)
  ∧ (secondaryModel config ≠ primaryModel config →
     ∀ entry,
       (resolve_model
          {| configs := configs st;
             health := <[ secondaryModel config := entry ]> (health st) |}
          (Some simulationId)).1 = json r
       ∧ (resolve_model
            {| configs := configs st;
               health := delete (secondaryModel config) (health st) |}
            (Some simulationId)).1 = json r).
Proof.
  intros Hconfig Hr.
  assert (Hkey : Js.to_key (field primaryModel
                   (Js.get (configs st) (Js.to_key (Some simulationId))))
                 = primaryModel config).
  { simpl. by rewrite (get_own _ _ _ Hconfig). }
  assert (Hreads : ∀ table,
    table !! primaryModel config = health st !! primaryModel config →
    (resolve_model {| configs := configs st; health := table |}
                   (Some simulationId)).1 = json r).
  { intros table Htable. rewrite <- Hr.
    apply resolve_model_reads. by rewrite Hkey. }
  split; [| split].
  - rewrite (resolve_model_details _ _ _ Hr). by rewrite Hkey.
  - exact Hreads.
  - intros Hne entry. split; apply Hreads.
    + by rewrite lookup_insert_ne.
    + by rewrite lookup_delete_ne.
Qed.

Lemma details_is_primary_entry_witness :
  let r := {| modelToUse := Some "claude-3-sonnet";
              fallbackOccurred := true;
              reason := reason_unhealthy (Some "gpt-4o")
                          (Js.own {| status := UNKNOWN; latency := None |});
              details := Js.own {| status := UNKNOWN; latency := None |} |} in
  details r = Js.get (health initial) "gpt-4o"
  ∧ (∀ table,
       table !! "gpt-4o" = health initial !! "gpt-4o" →
       (resolve_model {| configs := configs initial; health := table |}
                      (Some "sim-101-finance")).1 = json r)
  ∧ ("claude-3-sonnet" ≠ "gpt-4o" →
     ∀ entry,
       (resolve_model
          {| configs := configs initial;
             health := <[ "claude-3-sonnet" := entry ]> (health initial) |}
          (Some "sim-101-finance")).1 = json r
       ∧ (resolve_model
            {| configs := configs initial;
               health := delete "claude-3-sonnet" (health initial) |}
            (Some "sim-101-finance")).1 = json r).
Proof.
  intros r.
  apply (details_is_primary_entry initial "sim-101-finance"
           {| id := "sim-101-finance";
              name := "Financial Analyst Interview";
              primaryModel := "gpt-4o";
              secondaryModel := "claude-3-sonnet" |} r).
  - vm_compute. reflexivity.
  - vm_compute. reflexivity.
Defined.

(** C9. The handler is a function of the store and the request, and it hands
    the store back as it received it: a second call with the same id, made
    after the first, gives the same response, and neither call has changed
    the health table or the configs. *)
Theorem resolve_twice st simulationId :
  let first := resolve_model st simulationId in
  let second := resolve_model first.2 simulationId in
  second.1 = first.1
  ∧ health first.2 = health st ∧ configs first.2 = configs st
  ∧ health second.2 = health st ∧ configs second.2 = configs st.
Proof.
  intros first second. subst first second.
  rewrite !resolve_model_store. done.
Qed.

(** ** Requests the handler turns away *)

(** A missing or empty id is answered with 400 before either object is
    read: the response is the same whatever the store holds. *)
Lemma resolve_model_missing st simulationId :
  simulationId = None ∨ simulationId = Some "" →
  resolve_model st simulationId = (status_400 "simulationId is required", st).
Proof. by intros [-> | ->]. Qed.

(** A non-empty id that is neither a key of [simulationConfigs] nor a
    property name inherited from [Object.prototype] is answered with 404. *)
Lemma resolve_model_not_found st simulationId :
  simulationId ≠ "" →
  configs st !! simulationId = None →
  simulationId ∉ Js.Object_prototype →
  resolve_model st (Some simulationId) =
    (status_404 ("Simulation config for '" ++ simulationId ++ "' not found."),
     st).
Proof.
  intros Hid Hconfig Hproto. unfold resolve_model.
  rewrite truthy_Some by done. simpl.
  by rewrite (get_absent _ _ Hconfig Hproto).
Qed.

(** An id that is an inherited property name passes the [!config] test with
    the inherited value, whose [primaryModel] is [undefined]; the health
    table is then read at the key ["undefined"]. *)
Lemma resolve_model_inherited st simulationId :
  simulationId ∈ Js.Object_prototype →
  configs st !! simulationId = None →
  health st !! "undefined" = None →
  resolve_model st (Some simulationId) = (TypeError, st).
Proof.
  intros Hproto Hconfig Hundef. unfold resolve_model.
  rewrite truthy_Some.
  2: { intros ->. vm_compute in Hproto.
       repeat (apply elem_of_cons in Hproto as [Hproto|Hproto]; [done |]).
       by apply elem_of_nil in Hproto. }
  simpl. rewrite (get_inherited _ _ Hconfig Hproto). simpl.
  rewrite get_absent; [done | done |].
  unfold Js.Object_prototype. intros Hin.
  repeat (apply elem_of_cons in Hin as [Hin|Hin]; [done |]).
  by apply elem_of_nil in Hin.
Qed.

(** C4, at the request [{"simulationId": "constructor"}] on the store the
    program starts with: no SimulationConfig has this id, yet the handler
    does not answer 404. [simulationConfigs["constructor"]] is the inherited
    [Object], which passes [!config]; its [primaryModel] is [undefined], so
    is [modelHealthStatus[undefined]], and reading [.status] of it throws. *)
Theorem resolve_constructor :
  simulationConfigs !! "constructor" = None
  ∧ resolve_model initial (Some "constructor") = (TypeError, initial).
Proof.
  split; [vm_compute; reflexivity |].
  apply resolve_model_inherited.
  - unfold Js.Object_prototype. by left.
  - vm_compute. reflexivity.
  - vm_compute. reflexivity.
Qed.

(** ** A primary model without an entry *)

(** C7, as the spec states it, fails: ["gemini-pro"] has no entry in the
    health table, and the request for its simulation is not answered with a
    fallback, it ends in the TypeError thrown at [health.status]. *)
Lemma unregistered_primary_throws :
  configs unregistered_primary !! "sim-303-legal" = Some legal_config
  ∧ health unregistered_primary !! primaryModel legal_config = None
  ∧ (resolve_model unregistered_primary (Some "sim-303-legal")).1 = TypeError
  ∧ ¬ reads_as_unknown unregistered_primary "sim-303-legal".
Proof.
  assert (H : (resolve_model unregistered_primary
                 (Some "sim-303-legal")).1 = TypeError)
    by (vm_compute; reflexivity).
  split; [vm_compute; reflexivity |].
  split; [vm_compute; reflexivity |].
  split; [exact H |].
  intros [r [Hr _]]. rewrite H in Hr. discriminate.
Qed.

(** C7, amended. When the primary model of a simulation's config has no own
    entry in the health table, the read [modelHealthStatus[primaryModel]]
    does not give an UNKNOWN entry. If the name is not an inherited property
    name the read gives [undefined] and the handler throws a TypeError on
    [health.status]: there is no ResolutionResult and no fallback. If the
    name is an inherited property name the read gives the inherited value,
    whose [status] is [undefined], and the handler falls back to the
    secondary model with that value as [details]. *)
Theorem unregistered_primary_model st simulationId config :
  simulationId ≠ "" →
  configs st !! simulationId = Some config →
  health st !! primaryModel config = None →
  (primaryModel config ∉ Js.Object_prototype →
   resolve_model st (Some simulationId) = (TypeError, st))
  ∧ (primaryModel config ∈ Js.Object_prototype →
     resolve_model st (Some simulationId) =
       (json {| modelToUse := Some (secondaryModel config);
                fallbackOccurred := true;
                reason := reason_unhealthy (Some (primaryModel config))
                            (Js.inherited (primaryModel config));
                details := Js.inherited (primaryModel config) |}, st)).
Proof.
  intros Hid Hconfig Hh.
  split; intros Hproto; unfold resolve_model;
    rewrite truthy_Some by done; simpl;
    rewrite (get_own _ _ _ Hconfig); simpl.
  - by rewrite (get_absent _ _ Hh Hproto).
  - by rewrite (get_inherited _ _ Hh Hproto).
Qed.

Lemma unregistered_primary_model_witness :
  ("gemini-pro" ∉ Js.Object_prototype →
   resolve_model unregistered_primary (Some "sim-303-legal")
   = (TypeError, unregistered_primary))
  ∧ ("gemini-pro" ∈ Js.Object_prototype →
     resolve_model unregistered_primary (Some "sim-303-legal") =
       (json {| modelToUse := Some "gpt-4o";
                fallbackOccurred := true;
                reason := reason_unhealthy (Some "gemini-pro")
                            (Js.inherited "gemini-pro");
                details := Js.inherited "gemini-pro" |},
        unregistered_primary)).
Proof.
  apply (unregistered_primary_model unregistered_primary "sim-303-legal"
           legal_config).
  - done.
  - vm_compute. reflexivity.
  - vm_compute. reflexivity.
Defined.

(** ** The monitor *)

(** C2. In a cycle, the entry stored for a model of the table has status
    HEALTHY exactly when the model's probe reported success and a latency
    strictly below the threshold of 1500 ms; with any other outcome the
    stored status is UNHEALTHY. *)
Theorem classification_law probe st modelName :
  is_Some (health st !! modelName) →
  ∃ entry,
    health (updateAllModelsHealth probe st) !! modelName = Some entry
    ∧ LATENCY_THRESHOLD_MS = Js.Finite (Qc_of_Z 1500)
    ∧ (status entry = HEALTHY ↔
         Probe.success (probe modelName) = true
         ∧ Js.lt (Probe.latency (probe modelName)) LATENCY_THRESHOLD_MS = true)
    ∧ (status entry ≠ HEALTHY → status entry = UNHEALTHY).
Proof.
  intros [old Hold]. exists (classify (probe modelName)).
  rewrite updateAllModelsHealth_lookup, Hold.
  split; [done |]. split; [done |].
  rewrite classify_status.
  destruct (Probe.success (probe modelName)),
    (Js.lt (Probe.latency (probe modelName)) LATENCY_THRESHOLD_MS); simpl;
    (split; [split |]); try done; intros; destruct_and?; done.
Qed.

Lemma classification_law_witness :
  ∃ entry,
    health (updateAllModelsHealth one_fails initial) !! "gpt-4o" = Some entry
    ∧ LATENCY_THRESHOLD_MS = Js.Finite (Qc_of_Z 1500)
    ∧ (status entry = HEALTHY ↔
         Probe.success (one_fails "gpt-4o") = true
         ∧ Js.lt (Probe.latency (one_fails "gpt-4o")) LATENCY_THRESHOLD_MS
           = true)
    ∧ (status entry ≠ HEALTHY → status entry = UNHEALTHY).
Proof.
  apply (classification_law one_fails initial "gpt-4o").
  exists {| status := UNKNOWN; latency := None |}.
  vm_compute. reflexivity.
Defined.

(** C5. A cycle goes through the whole table whatever the probes report:
    every model of the table is probed once, its entry afterwards is the
    classification of this cycle's probe of it, UNHEALTHY when that probe
    failed, and this holds for each model independently of how the probes of
    the other models went. The cycle returns a store: it has no error
    outcome, and it leaves the key set and the configs as they were. *)
Theorem cycle_completes probe st :
  dom (health (updateAllModelsHealth probe st)) = dom (health st)
  ∧ configs (updateAllModelsHealth probe st) = configs st
  ∧ updateAllModelsHealth probe st
    = run st (cycle_events probe (health st))
  ∧ NoDup (cycle_events probe (health st))
  ∧ ∀ modelName, modelName ∈ dom (health st) →
      completed modelName (probe modelName)
        ∈ cycle_events probe (health st)
      ∧ health (updateAllModelsHealth probe st) !! modelName
        = Some (classify (probe modelName))
      ∧ (Probe.success (probe modelName) = false →
         status (classify (probe modelName)) = UNHEALTHY).
Proof.
  split; [apply updateAllModelsHealth_dom |].
  split; [apply updateAllModelsHealth_configs |].
  split; [apply updateAllModelsHealth_run |].
  split.
  { unfold cycle_events. apply NoDup_fmap_2; [| apply NoDup_for_in].
    by intros m1 m2 [= ->]. }
  intros modelName [old Hold]%elem_of_dom.
  split; [| split].
  - unfold cycle_events. apply list_elem_of_fmap.
    exists modelName. split; [done |].
    apply elem_of_for_in. by exists old.
  - by rewrite updateAllModelsHealth_lookup, Hold.
  - apply classify_failure.
Qed.

(** Scenario D of the spec: the probe of [gpt-4o] fails, the probe of
    [claude-3-sonnet] succeeds, and both entries are written. *)
Example cycle_one_fails :
  health (updateAllModelsHealth one_fails initial) !! "gpt-4o"
  = Some {| status := UNHEALTHY;
            latency := Some (Js.Finite (Qc_of_Z 5200)) |}
  ∧ health (updateAllModelsHealth one_fails initial) !! "claude-3-sonnet"
    = Some {| status := HEALTHY;
              latency := Some (Js.Finite (Qc_of_Z 120)) |}.
Proof.
  rewrite !updateAllModelsHealth_lookup. split; vm_compute; reflexivity.
Qed.

(** C10. Once a probe of a model has completed, the model's entry is the
    record built from that probe's result alone: its latency is the latency
    the probe reported, on the HEALTHY branch and on the UNHEALTHY branch
    alike, never [null]; its status is the classification of the same
    result; nothing of the previous entry remains, and no other entry is
    touched. *)
Theorem completed_probe_pair st modelName result :
  is_Some (health st !! modelName) →
  ∃ entry,
    health (probe_completed st modelName result) !! modelName = Some entry
    ∧ latency entry = Some (Probe.latency result)
    ∧ status entry =
        (if Probe.success result
            && Js.lt (Probe.latency result) LATENCY_THRESHOLD_MS
         then HEALTHY else UNHEALTHY)
    ∧ (∀ previous,
         health (probe_completed
                   {| configs := configs st;
                      health := <[ modelName := previous ]> (health st) |}
                   modelName result) !! modelName = Some entry)
    ∧ (∀ other, other ≠ modelName →
         health (probe_completed st modelName result) !! other
         = health st !! other).
Proof.
  intros _. exists (classify result). simpl.
  split; [apply lookup_insert_eq |].
  split; [apply classify_latency |].
  split; [apply classify_status |].
  split.
  - intros previous. apply lookup_insert_eq.
  - intros other Hne. by apply lookup_insert_ne.
Qed.

Lemma completed_probe_pair_witness :
  ∃ entry,
    health (probe_completed initial "gpt-4o" (one_fails "gpt-4o")) !! "gpt-4o"
    = Some entry
    ∧ latency entry = Some (Probe.latency (one_fails "gpt-4o"))
    ∧ status entry =
        (if Probe.success (one_fails "gpt-4o")
            && Js.lt (Probe.latency (one_fails "gpt-4o"))
                     LATENCY_THRESHOLD_MS
         then HEALTHY else UNHEALTHY)
    ∧ (∀ previous,
         health (probe_completed
                   {| configs := configs initial;
                      health := <[ "gpt-4o" := previous ]> (health initial) |}
                   "gpt-4o" (one_fails "gpt-4o")) !! "gpt-4o" = Some entry)
    ∧ (∀ other, other ≠ "gpt-4o" →
         health (probe_completed initial "gpt-4o" (one_fails "gpt-4o"))
           !! other
         = health initial !! other).
Proof.
  apply (completed_probe_pair initial "gpt-4o" (one_fails "gpt-4o")).
  exists {| status := UNKNOWN; latency := None |}.
  vm_compute. reflexivity.
Defined.

(** C8. Start from the table of the source and let any sequence of probes
    complete, with requests served in between. For a model of the table: as
    long as none of the completed probes was a probe of it, its entry is
    still status UNKNOWN with latency [null]; from its first completed probe
    on, its entry is the classification of its latest completed probe, whose
    status is HEALTHY or UNHEALTHY and never UNKNOWN. *)
Theorem unknown_until_probed events modelName :
  modelName ∈ dom modelHealthStatus →
  match last_probe modelName events with
  | None =>
      health (run initial events) !! modelName
      = Some {| status := UNKNOWN; latency := None |}
  | Some result =>
      health (run initial events) !! modelName = Some (classify result)
      ∧ (status (classify result) = HEALTHY
         ∨ status (classify result) = UNHEALTHY)
      ∧ status (classify result) ≠ UNKNOWN
  end.
Proof.
  intros Hdom. rewrite run_lookup.
  destruct (last_probe modelName events) as [result|].
  - split; [done |]. split; [| apply classify_known].
    rewrite classify_status. destruct (_ && _); [by left | by right].
  - apply elem_of_dom in Hdom as [entry Hentry]. simpl. rewrite Hentry.
    unfold modelHealthStatus in Hentry.
    apply lookup_insert_Some in Hentry as [[_ <-] | [_ Hentry]]; [done |].
    apply lookup_insert_Some in Hentry as [[_ <-] | [_ Hentry]]; [done |].
    by rewrite lookup_empty in Hentry.
Qed.

Lemma unknown_until_probed_witness :
  health (run initial
            [completed "gpt-4o" (one_fails "gpt-4o");
             request (Some "sim-101-finance");
             completed "gpt-4o" (one_fails "claude-3-sonnet")])
    !! "gpt-4o"
  = Some (classify (one_fails "claude-3-sonnet"))
  ∧ (status (classify (one_fails "claude-3-sonnet")) = HEALTHY
     ∨ status (classify (one_fails "claude-3-sonnet")) = UNHEALTHY)
  ∧ status (classify (one_fails "claude-3-sonnet")) ≠ UNKNOWN.
Proof.
  apply (unknown_until_probed
           [completed "gpt-4o" (one_fails "gpt-4o");
            request (Some "sim-101-finance");
            completed "gpt-4o" (one_fails "claude-3-sonnet")]
           "gpt-4o").
  apply elem_of_dom. exists {| status := UNKNOWN; latency := None |}.
  vm_compute. reflexivity.
Defined.

(** ** The running program *)

(** The key set of the health table never changes, so both models of the
    source keep an entry. *)
Lemma reachable_dom st :
  reachable st →
  configs st = simulationConfigs
  ∧ dom (health st) = dom modelHealthStatus.
Proof.
  induction 1 as [|st modelName result _ [IHc IHd] Hin
                  |st simulationId _ IH].
  - done.
  - split; [done |]. simpl. rewrite dom_insert_L, IHd.
    apply elem_of_for_in, elem_of_dom in Hin. rewrite IHd in Hin.
    apply subseteq_union_1_L. by apply singleton_subseteq_l.
  - by rewrite resolve_model_store.
Qed.

Lemma reachable_cycle probe st :
  reachable st → reachable (updateAllModelsHealth probe st).
Proof.
  intros Hst. unfold updateAllModelsHealth.
  assert (Hkeys : ∀ m, m ∈ Js.for_in (health st) → m ∈ dom (health st)).
  { intros m Hm. by apply elem_of_dom, elem_of_for_in. }
  revert Hkeys. generalize (Js.for_in (health st)) as models.
  assert (Hgen : ∀ models st',
    reachable st' → dom (health st') = dom (health st) →
    (∀ m, m ∈ models → m ∈ dom (health st)) →
    reachable (foldl (λ st modelName,
                 probe_completed st modelName (probe modelName))
                 st' models)).
  { induction models as [|m models IH]; intros st' Hst' Hdom Hkeys;
      simpl; [done |].
    assert (Hm : m ∈ dom (health st)) by (apply Hkeys; by left).
    apply IH.
    - apply reachable_completed; [done |].
      apply elem_of_for_in, elem_of_dom. by rewrite Hdom.
    - simpl. rewrite dom_insert_L, Hdom.
      apply subseteq_union_1_L. by apply singleton_subseteq_l.
    - intros m' Hm'. apply Hkeys. by right. }
  intros models Hkeys. by apply Hgen.
Qed.

(** In the running program a request whose id is an inherited property
    name always ends in the TypeError. *)
Lemma reachable_inherited_id st simulationId :
  reachable st →
  simulationId ∈ Js.Object_prototype →
  resolve_model st (Some simulationId) = (TypeError, st).
Proof.
  intros [Hconfigs Hdom]%reachable_dom Hproto.
  apply resolve_model_inherited; [done | |].
  - rewrite Hconfigs. unfold Js.Object_prototype in Hproto.
    repeat (apply elem_of_cons in Hproto as [->|Hproto];
            [vm_compute; reflexivity |]).
    by apply elem_of_nil in Hproto.
  - apply not_elem_of_dom. rewrite Hdom. by vm_compute.
Qed.

(** In the running program every simulation of [simulationConfigs] is
    answered with a ResolutionResult, which reports a fallback exactly when
    the entry of its primary model is not HEALTHY. *)
Lemma reachable_fallback_law st simulationId config :
  reachable st →
  simulationConfigs !! simulationId = Some config →
  ∃ h r, health st !! primaryModel config = Some h
    ∧ (resolve_model st (Some simulationId)).1 = json r
    ∧ details r = Js.own h
    ∧ (fallbackOccurred r = true ↔ status h ≠ HEALTHY)
    ∧ modelToUse r =
        Some (if decide (status h = HEALTHY) then primaryModel config
              else secondaryModel config).
Proof.
  intros [Hconfigs Hdom]%reachable_dom Hconfig.
  assert (Hid : simulationId ≠ "") by (intros ->; by vm_compute in Hconfig).
  assert (Hprimary : primaryModel config ∈ dom (health st)).
  { rewrite Hdom. unfold simulationConfigs in Hconfig.
    apply lookup_insert_Some in Hconfig as [[_ <-] | [_ Hconfig]];
      [by vm_compute |].
    apply lookup_insert_Some in Hconfig as [[_ <-] | [_ Hconfig]];
      [by vm_compute |].
    by rewrite lookup_empty in Hconfig. }
  apply elem_of_dom in Hprimary as [h Hh]. rewrite <- Hconfigs in Hconfig.
  exists h. eexists. split; [done |].
  rewrite (resolve_model_own _ _ _ _ Hid Hconfig Hh). simpl.
  split; [reflexivity |].
  destruct (decide (status h = HEALTHY)); simpl; repeat split; done.
Qed.

(** Scenarios A, B and C of the spec, for [sim-101-finance]. *)
Example scenario_A :
  (resolve_model
     {| configs := simulationConfigs;
        health := <[ "gpt-4o" :=
                       {| status := HEALTHY;
                          latency := Some (Js.Finite (Qc_of_Z 120)) |} ]>
                  modelHealthStatus |}
     (Some "sim-101-finance")).1
  = json {| modelToUse := Some "gpt-4o";
            fallbackOccurred := false;
            reason := reason_healthy (Some "gpt-4o");
            details := Js.own {| status := HEALTHY;
                                 latency := Some (Js.Finite (Qc_of_Z 120)) |}
         |}.
Proof. vm_compute. reflexivity. Qed.

Example scenario_B :
  (resolve_model
     {| configs := simulationConfigs;
        health := <[ "gpt-4o" :=
                       {| status := UNHEALTHY;
                          latency := Some (Js.Finite (Qc_of_Z 5200)) |} ]>
                  modelHealthStatus |}
     (Some "sim-101-finance")).1
  = json {| modelToUse := Some "claude-3-sonnet";
            fallbackOccurred := true;
            reason := reason_unhealthy (Some "gpt-4o")
                        (Js.own {| status := UNHEALTHY;
                                   latency :=
                                     Some (Js.Finite (Qc_of_Z 5200)) |});
            details := Js.own {| status := UNHEALTHY;
                                 latency :=
                                   Some (Js.Finite (Qc_of_Z 5200)) |} |}.
Proof. vm_compute. reflexivity. Qed.

Example scenario_C :
  (resolve_model initial (Some "sim-101-finance")).1
  = json {| modelToUse := Some "claude-3-sonnet";
            fallbackOccurred := true;
            reason := reason_unhealthy (Some "gpt-4o")
                        (Js.own {| status := UNKNOWN; latency := None |});
            details := Js.own {| status := UNKNOWN; latency := None |} |}.
Proof. vm_compute. reflexivity. Qed.

(** ** Cycles in sequence *)

Lemma cycles_dom probes :
  ∀ st, dom (health (cycles st probes)) = dom (health st).
Proof.
  induction probes as [|probe probes IH]; intros st; simpl; [done |].
  unfold cycles in IH. by rewrite IH, updateAllModelsHealth_dom.
Qed.

(** After cycle N the entry of every model of the table is cycle N's
    classification of it, whatever the earlier cycles found. *)
Lemma latest_cycle probes probe modelName :
  modelName ∈ dom modelHealthStatus →
  health (cycles initial (probes ++ [probe])) !! modelName
  = Some (classify (probe modelName)).
Proof.
  intros Hdom. unfold cycles. rewrite foldl_app. simpl.
  rewrite updateAllModelsHealth_lookup.
  fold (cycles initial probes).
  assert (Hin : modelName ∈ dom (health (cycles initial probes)))
    by by rewrite cycles_dom.
  apply elem_of_dom in Hin as [entry ->]. done.
Qed.

(** * Further properties of the code *)

Lemma Store_eq (st1 st2 : Store) :
  configs st1 = configs st2 → health st1 = health st2 → st1 = st2.
Proof. destruct st1, st2. simpl. by intros -> ->. Qed.

(** ** The checker of the source *)

Lemma mock_latency_test modelName result :
  mockCheckLLMHealth modelName result →
  Js.lt (Probe.latency result) LATENCY_THRESHOLD_MS = Probe.success result.
Proof.
  intros [q Hlow Hhigh | n [Hlow Hhigh]];
    unfold LATENCY_THRESHOLD_MS; cbn [Probe.success Probe.latency Js.lt].
  - apply bool_decide_eq_false_2. apply Qcle_not_lt.
    apply Qcle_trans with (Qc_of_Z 5000); [| done].
    apply (proj1 (Z2Qc_inj_le 1500 5000)). lia.
  - apply bool_decide_eq_true_2.
    apply (proj1 (Z2Qc_inj_lt n 1500)). lia.
Qed.

(** X1. Whatever [mockCheckLLMHealth] resolves to, the latency test of line
    70 agrees with the success flag: a failure reports at least 5000 ms,
    which is not below the threshold, and a success at most 500 ms, which
    is. So the stored status is HEALTHY exactly for a successful probe, and
    the stored latency is a finite number. *)
Theorem mock_probe_classification modelName result :
  mockCheckLLMHealth modelName result →
  Js.lt (Probe.latency result) LATENCY_THRESHOLD_MS = Probe.success result
  ∧ (status (classify result) = HEALTHY ↔ Probe.success result = true)
  ∧ (status (classify result) = UNHEALTHY ↔ Probe.success result = false)
  ∧ ∃ q, latency (classify result) = Some (Js.Finite q).
Proof.
  intros Hmock. pose proof (mock_latency_test _ _ Hmock) as Hlt.
  split; [done |].
  rewrite classify_status, classify_latency, Hlt.
  destruct Hmock; cbn [Probe.success Probe.latency andb];
    (split; [| split]); try (by eexists); split; done.
Qed.

Lemma mock_probe_classification_witness :
  Js.lt (Probe.latency (one_fails "gpt-4o")) LATENCY_THRESHOLD_MS
  = Probe.success (one_fails "gpt-4o")
  ∧ (status (classify (one_fails "gpt-4o")) = HEALTHY
     ↔ Probe.success (one_fails "gpt-4o") = true)
  ∧ (status (classify (one_fails "gpt-4o")) = UNHEALTHY
     ↔ Probe.success (one_fails "gpt-4o") = false)
  ∧ ∃ q, latency (classify (one_fails "gpt-4o")) = Some (Js.Finite q).
Proof.
  apply (mock_probe_classification "gpt-4o" (one_fails "gpt-4o")).
  change (one_fails "gpt-4o")
    with {| Probe.success := false;
            Probe.latency := Js.Finite (Qc_of_Z 5200) |}.
  apply mock_failure.
  - apply (proj1 (Z2Qc_inj_le 5000 5200)). lia.
  - apply (proj1 (Z2Qc_inj_le 5200 6000)). lia.
Defined.

(** ** Which answer a request gets *)


(** X3. The handler answers 404 exactly when the id is not empty, is not a
    key of [simulationConfigs] and is not a property name inherited from
    [Object.prototype]; the message then quotes the id. *)
Theorem not_found_iff st simulationId :
  ((∃ error, (resolve_model st (Some simulationId)).1 = status_404 error)
   ↔ simulationId ≠ ""
     ∧ configs st !! simulationId = None
     ∧ simulationId ∉ Js.Object_prototype)
  ∧ ∀ error, (resolve_model st (Some simulationId)).1 = status_404 error →
      error = "Simulation config for '" ++ simulationId ++ "' not found.".
Proof.
  assert (Hcases :
    ∀ error, (resolve_model st (Some simulationId)).1 = status_404 error →
      simulationId ≠ ""
      ∧ Js.get (configs st) simulationId = Js.undefined
      ∧ error = "Simulation config for '" ++ simulationId ++ "' not found.").
  { intros error. unfold resolve_model. simpl.
    case_bool_decide as Hs; simpl; [| done].
    destruct (Js.get (configs st) simulationId) eqn:Hget.
    - by intros [= <-].
    - destruct (Js.get (health st) _); try done; by destruct (decide _).
    - destruct (Js.get (health st) _); try done; by destruct (decide _). }
  split; [split |].
  - intros [error (Hs & Hget & _)%Hcases]. split; [done |].
    unfold Js.get in Hget.
    destruct (configs st !! simulationId); [done |].
    by case_bool_decide.
  - intros (Hs & Hconfig & Hproto). eexists.
    by rewrite resolve_model_not_found.
  - intros error (_ & _ & ->)%Hcases. done.
Qed.

(** X7. In every ResolutionResult the fields agree with each other:
    [fallbackOccurred] is false exactly when [details] is an entry whose
    status is HEALTHY; then the reason is the healthy text about the model
    returned; on a fallback the reason is the unhealthy text about the value
    in [details]. *)
Theorem result_fields_agree st simulationId r :
  (resolve_model st simulationId).1 = json r →
  (fallbackOccurred r = false
   ↔ ∃ h, details r = Js.own h ∧ status h = HEALTHY)
  ∧ (fallbackOccurred r = false → reason r = reason_healthy (modelToUse r))
  ∧ (fallbackOccurred r = true →
     ∃ primary, reason r = reason_unhealthy primary (details r))
  ∧ details r ≠ Js.undefined.
Proof.
  unfold resolve_model.
  destruct (negb (Js.truthy simulationId)); [done |].
  destruct (Js.get (configs st) _) as [|k|c]; [done | |];
    (destruct (Js.get (health st) _) as [|k'|h]; [done | |];
     [| destruct (decide (status h = HEALTHY)) as [Hh|Hh]]);
    simpl; intros [= <-]; simpl;
    (split; [split |]); try done;
    try (by intros [h' [[= <-] ?]]);
    try (by intros [h' [? ?]]);
    try (intros _; by eexists);
    try (repeat split; try done; intros _; by eexists).
Qed.

Lemma result_fields_agree_witness :
  (fallbackOccurred
     {| modelToUse := Some "claude-3-sonnet";
        fallbackOccurred := true;
        reason := reason_unhealthy (Some "gpt-4o")
                    (Js.own {| status := UNKNOWN; latency := None |});
        details := Js.own {| status := UNKNOWN; latency := None |} |}
   = false
   ↔ ∃ h, Js.own {| status := UNKNOWN; latency := None |} = Js.own h
          ∧ status h = HEALTHY)
  ∧ (true = false →
     reason_unhealthy (Some "gpt-4o")
       (Js.own {| status := UNKNOWN; latency := None |})
     = reason_healthy (Some "claude-3-sonnet"))
  ∧ (true = true →
     ∃ primary,
       reason_unhealthy (Some "gpt-4o")
         (Js.own {| status := UNKNOWN; latency := None |})
       = reason_unhealthy primary
           (Js.own {| status := UNKNOWN; latency := None |}))
  ∧ Js.own {| status := UNKNOWN; latency := None |} ≠ Js.undefined.
Proof.
  apply (result_fields_agree initial (Some "sim-101-finance")
           {| modelToUse := Some "claude-3-sonnet";
              fallbackOccurred := true;
              reason := reason_unhealthy (Some "gpt-4o")
                          (Js.own {| status := UNKNOWN; latency := None |});
              details := Js.own {| status := UNKNOWN; latency := None |} |}).
  vm_compute. reflexivity.
Defined.

(** ** Invariants of the running program *)

Lemma dom_modelHealthStatus :
  dom modelHealthStatus = ({[ "gpt-4o"; "claude-3-sonnet" ]} : gset string).
Proof.
  unfold modelHealthStatus.
  rewrite !dom_insert_L, dom_empty_L. by rewrite (right_id_L ∅ (∪)).
Qed.

(** X6. The running program never changes [simulationConfigs], and the
    monitor never adds a model to the health table nor removes one: in
    every reachable store the table has exactly the two keys it was created
    with, so the key ["undefined"] is never among them. *)
Theorem reachable_keys st :
  reachable st →
  configs st = simulationConfigs
  ∧ dom (health st) = ({[ "gpt-4o"; "claude-3-sonnet" ]} : gset string)
  ∧ size (health st) = 2
  ∧ health st !! "undefined" = None.
Proof.
  intros [Hconfigs Hdom]%reachable_dom.
  rewrite dom_modelHealthStatus in Hdom.
  split; [done |]. split; [done |]. split.
  - rewrite <- size_dom, Hdom. rewrite size_union.
    + by rewrite !size_singleton.
    + apply disjoint_singleton_l. by intros [=]%elem_of_singleton.
  - apply not_elem_of_dom. rewrite Hdom.
    intros [[=]%elem_of_singleton | [=]%elem_of_singleton]%elem_of_union.
Qed.

Lemma reachable_keys_witness :
  configs (updateAllModelsHealth one_fails initial) = simulationConfigs
  ∧ dom (health (updateAllModelsHealth one_fails initial))
    = ({[ "gpt-4o"; "claude-3-sonnet" ]} : gset string)
  ∧ size (health (updateAllModelsHealth one_fails initial)) = 2
  ∧ health (updateAllModelsHealth one_fails initial) !! "undefined" = None.
Proof.
  apply (reachable_keys (updateAllModelsHealth one_fails initial)).
  apply reachable_cycle. apply reachable_initial.
Defined.

(** X5. In every reachable store each entry is a consistent pair: status
    UNKNOWN goes with latency [null] (the entry was never written), status
    HEALTHY with a latency below the threshold, and status UNHEALTHY with
    the latency some probe reported. *)
Theorem reachable_entries st modelName entry :
  reachable st →
  health st !! modelName = Some entry →
  match status entry with
  | UNKNOWN => latency entry = None
  | HEALTHY =>
      ∃ n, latency entry = Some n ∧ Js.lt n LATENCY_THRESHOLD_MS = true
  | UNHEALTHY => ∃ n, latency entry = Some n
  end.
Proof.
  intros Hst. revert modelName entry.
  induction Hst as [|st m result _ IH Hin|st simulationId _ IH];
    intros modelName entry Hentry.
  - simpl in Hentry. unfold modelHealthStatus in Hentry.
    apply lookup_insert_Some in Hentry as [[_ <-] | [_ Hentry]]; [done |].
    apply lookup_insert_Some in Hentry as [[_ <-] | [_ Hentry]]; [done |].
    by rewrite lookup_empty in Hentry.
  - simpl in Hentry.
    apply lookup_insert_Some in Hentry as [[_ <-] | [_ Hentry]];
      [| by apply (IH modelName)].
    unfold classify.
    destruct (Probe.success result) eqn:Hs;
      destruct (Js.lt (Probe.latency result) LATENCY_THRESHOLD_MS) eqn:Hlt;
      simpl; by eexists.
  - rewrite resolve_model_store in Hentry. by apply (IH modelName).
Qed.

Lemma reachable_entries_witness :
  match status {| status := UNHEALTHY;
                  latency := Some (Js.Finite (Qc_of_Z 5200)) |} with
  | UNKNOWN =>
      latency {| status := UNHEALTHY;
                 latency := Some (Js.Finite (Qc_of_Z 5200)) |} = None
  | HEALTHY =>
      ∃ n, latency {| status := UNHEALTHY;
                      latency := Some (Js.Finite (Qc_of_Z 5200)) |} = Some n
           ∧ Js.lt n LATENCY_THRESHOLD_MS = true
  | UNHEALTHY =>
      ∃ n, latency {| status := UNHEALTHY;
                      latency := Some (Js.Finite (Qc_of_Z 5200)) |} = Some n
  end.
Proof.
  apply (reachable_entries
           (probe_completed initial "gpt-4o" (one_fails "gpt-4o")) "gpt-4o"
           {| status := UNHEALTHY;
              latency := Some (Js.Finite (Qc_of_Z 5200)) |}).
  - apply reachable_completed; [apply reachable_initial |].
    apply elem_of_for_in. eexists. vm_compute. reflexivity.
  - vm_compute. reflexivity.
Defined.

Lemma not_inherited_configs simulationId config :
  simulationConfigs !! simulationId = Some config →
  simulationId ≠ "" ∧ simulationId ∉ Js.Object_prototype.
Proof.
  unfold simulationConfigs. intros Hconfig.
  apply lookup_insert_Some in Hconfig as [[<- _] | [_ Hconfig]];
    [| apply lookup_insert_Some in Hconfig as [[<- _] | [_ Hconfig]];
       [| by rewrite lookup_empty in Hconfig]];
    (split; [done |]); unfold Js.Object_prototype; intros Hin;
    repeat (apply elem_of_cons in Hin as [Hin|Hin]; [done |]);
    by apply elem_of_nil in Hin.
Qed.

Lemma inherited_not_empty simulationId :
  simulationId ∈ Js.Object_prototype → simulationId ≠ "".
Proof.
  unfold Js.Object_prototype. intros Hin ->.
  repeat (apply elem_of_cons in Hin as [Hin|Hin]; [done |]).
  by apply elem_of_nil in Hin.
Qed.

Local Ltac settle_response :=
  try done;
  try (by eexists);
  try (by intros [? [=]]);
  try (by intros [=]);
  try (by intros (? & ? & ?));
  try (by intros [? ?]).

(** X4. What the running program answers to a request with id
    [simulationId], in every reachable store: 400 exactly for the empty id,
    a ResolutionResult exactly for the ids of [simulationConfigs], an
    uncaught TypeError exactly for the property names inherited from
    [Object.prototype], and 404 for every other id. *)
Theorem reachable_responses st simulationId :
  reachable st →
  ((∃ error, (resolve_model st (Some simulationId)).1 = status_400 error)
   ↔ simulationId = "")
  ∧ ((∃ r, (resolve_model st (Some simulationId)).1 = json r)
     ↔ is_Some (simulationConfigs !! simulationId))
  ∧ ((resolve_model st (Some simulationId)).1 = TypeError
     ↔ simulationId ∈ Js.Object_prototype)
  ∧ ((∃ error, (resolve_model st (Some simulationId)).1 = status_404 error)
     ↔ simulationId ≠ ""
       ∧ simulationConfigs !! simulationId = None
       ∧ simulationId ∉ Js.Object_prototype).
Proof.
  intros Hst.
  destruct (decide (simulationId = "")) as [->|Hid].
  { assert (Hempty : "" ∉ Js.Object_prototype)
      by (intros H; by apply inherited_not_empty in H).
    rewrite resolve_model_missing by by right. simpl.
    split_and!; (split; settle_response). }
  destruct (simulationConfigs !! simulationId) as [config|] eqn:Hconfig.
  { destruct (not_inherited_configs _ _ Hconfig) as [_ Hproto].
    destruct (reachable_fallback_law _ _ _ Hst Hconfig)
      as (h & r & _ & Hr & _).
    rewrite Hr. split_and!; (split; settle_response). }
  destruct (decide (simulationId ∈ Js.Object_prototype)) as [Hproto|Hproto].
  { rewrite (reachable_inherited_id _ _ Hst Hproto). simpl.
    split_and!; (split; settle_response). }
  apply reachable_dom in Hst as [Hconfigs _].
  rewrite resolve_model_not_found by (by rewrite ?Hconfigs). simpl.
  split_and!; (split; settle_response).
Qed.

Lemma reachable_responses_witness :
  ((∃ error, (resolve_model initial (Some "valueOf")).1 = status_400 error)
   ↔ "valueOf" = "")
  ∧ ((∃ r, (resolve_model initial (Some "valueOf")).1 = json r)
     ↔ is_Some (simulationConfigs !! "valueOf"))
  ∧ ((resolve_model initial (Some "valueOf")).1 = TypeError
     ↔ "valueOf" ∈ Js.Object_prototype)
  ∧ ((∃ error, (resolve_model initial (Some "valueOf")).1 = status_404 error)
     ↔ "valueOf" ≠ ""
       ∧ simulationConfigs !! "valueOf" = None
       ∧ "valueOf" ∉ Js.Object_prototype).
Proof.
  apply (reachable_responses initial "valueOf"). apply reachable_initial.
Defined.

(** ** How cycles compose *)

Lemma probe_each_run probe st models :
  probe_each probe st models
  = run st ((λ m, completed m (probe m)) <$> models).
Proof. unfold probe_each, run. by rewrite foldl_fmap. Qed.

Lemma probe_each_lookup probe st models modelName :
  health (probe_each probe st models) !! modelName =
    if decide (modelName ∈ models) then Some (classify (probe modelName))
    else health st !! modelName.
Proof.
  rewrite probe_each_run, run_lookup, last_probe_cycle.
  by destruct (decide (modelName ∈ models)).
Qed.

Lemma updateAllModelsHealth_overwrites probe1 probe2 st :
  updateAllModelsHealth probe2 (updateAllModelsHealth probe1 st)
  = updateAllModelsHealth probe2 st.
Proof.
  apply Store_eq.
  - by rewrite !updateAllModelsHealth_configs.
  - apply map_eq. intros modelName.
    rewrite !updateAllModelsHealth_lookup.
    by destruct (health st !! modelName).
Qed.

(** X8. A cycle keeps nothing of the cycles before it: after any number of
    cycles run one after the other, the store is the one the last cycle
    alone would have produced. In particular repeating a cycle with the same
    probe outcomes changes nothing. *)
Theorem cycles_last probes probe st :
  cycles st (probes ++ [probe]) = updateAllModelsHealth probe st.
Proof.
  unfold cycles. rewrite foldl_app. simpl.
  induction probes as [|probe' probes IH] using rev_ind; [done |].
  rewrite foldl_app. simpl.
  by rewrite updateAllModelsHealth_overwrites.
Qed.

(** X9. The outcome of a cycle does not depend on the order in which the
    loop visits the models: visiting the keys of the table in any order
    gives the store [updateAllModelsHealth] gives. *)
Theorem cycle_order_irrelevant probe st models :
  models ≡ₚ Js.for_in (health st) →
  probe_each probe st models = updateAllModelsHealth probe st.
Proof.
  intros Hperm. change (updateAllModelsHealth probe st)
    with (probe_each probe st (Js.for_in (health st))).
  apply Store_eq.
  - by rewrite !probe_each_run, !run_configs.
  - apply map_eq. intros modelName. rewrite !probe_each_lookup.
    destruct (decide (modelName ∈ models)) as [Hin|Hnin].
    + rewrite decide_True; [done | by rewrite <- Hperm].
    + rewrite decide_False; [done | by rewrite <- Hperm].
Qed.

Lemma cycle_order_irrelevant_witness :
  probe_each one_fails initial ["claude-3-sonnet"; "gpt-4o"]
  = updateAllModelsHealth one_fails initial.
Proof.
  apply (cycle_order_irrelevant one_fails initial
           ["claude-3-sonnet"; "gpt-4o"]).
  vm_compute. apply perm_swap.
Defined.

Lemma run_drop_requests events :
  ∀ st, run st events = run st (drop_requests events).
Proof.
  induction events as [|[m r|simulationId] events IH]; intros st; simpl.
  - done.
  - apply IH.
  - rewrite resolve_model_store. apply IH.
Qed.

(** X10. Requests served while a cycle is under way do not disturb it: if
    the completed probes among a sequence of events are those of one cycle,
    the store at the end is the one the uninterrupted cycle produces. *)
Theorem cycle_with_requests probe st events :
  drop_requests events = cycle_events probe (health st) →
  run st events = updateAllModelsHealth probe st.
Proof.
  intros Hevents.
  by rewrite run_drop_requests, Hevents, updateAllModelsHealth_run.
Qed.

Lemma cycle_with_requests_witness :
  run initial cycle_under_load = updateAllModelsHealth one_fails initial.
Proof.
  apply (cycle_with_requests one_fails initial cycle_under_load).
  vm_compute. reflexivity.
Defined.

(** X12. A completed cycle leaves no entry of the table UNKNOWN and none
    with a [null] latency, whatever the entries were before. *)
Theorem after_cycle_known probe st modelName entry :
  health (updateAllModelsHealth probe st) !! modelName = Some entry →
  status entry ≠ UNKNOWN
  ∧ latency entry = Some (Probe.latency (probe modelName))
  ∧ is_Some (health st !! modelName).
Proof.
  rewrite updateAllModelsHealth_lookup.
  destruct (health st !! modelName) as [old|] eqn:Hold; [| done].
  intros [= <-]. split; [apply classify_known |].
  split; [apply classify_latency | by eexists].
Qed.

Lemma after_cycle_known_witness :
  status {| status := HEALTHY;
            latency := Some (Js.Finite (Qc_of_Z 120)) |} ≠ UNKNOWN
  ∧ latency {| status := HEALTHY;
               latency := Some (Js.Finite (Qc_of_Z 120)) |}
    = Some (Probe.latency (one_fails "claude-3-sonnet"))
  ∧ is_Some (health initial !! "claude-3-sonnet").
Proof.
  apply (after_cycle_known one_fails initial "claude-3-sonnet"
           {| status := HEALTHY;
              latency := Some (Js.Finite (Qc_of_Z 120)) |}).
  rewrite updateAllModelsHealth_lookup. vm_compute. reflexivity.
Defined.

(** ** The monitor and the resolver together *)

Lemma resolve_after_cycle_eq probe st simulationId config :
  simulationId ≠ "" →
  configs st !! simulationId = Some config →
  is_Some (health st !! primaryModel config) →
  (resolve_model (updateAllModelsHealth probe st) (Some simulationId)).1
  = json (if decide (status (classify (probe (primaryModel config)))
                     = HEALTHY) then
            {| modelToUse := Some (primaryModel config);
               fallbackOccurred := false;
               reason := reason_healthy (Some (primaryModel config));
               details := Js.own (classify (probe (primaryModel config))) |}
          else
            {| modelToUse := Some (secondaryModel config);
               fallbackOccurred := true;
               reason := reason_unhealthy (Some (primaryModel config))
                           (Js.own (classify (probe (primaryModel config))));
               details := Js.own (classify (probe (primaryModel config))) |}).
Proof.
  intros Hid Hconfig [old Hold].
  rewrite (resolve_model_own _ simulationId config
             (classify (probe (primaryModel config)))); [done | done | |].
  - by rewrite updateAllModelsHealth_configs.
  - by rewrite updateAllModelsHealth_lookup, Hold.
Qed.

(** X11. A request served right after a cycle is decided by that cycle's
    probe of the primary model alone: the primary model is returned, without
    fallback, exactly when that probe succeeded with a latency below the
    threshold; otherwise the secondary model is returned. [details] is the
    entry the cycle wrote, with the probe's latency. *)
Theorem resolve_after_cycle probe st simulationId config :
  simulationId ≠ "" →
  configs st !! simulationId = Some config →
  is_Some (health st !! primaryModel config) →
  ∃ r,
    (resolve_model (updateAllModelsHealth probe st) (Some simulationId)).1
    = json r
    ∧ details r = Js.own (classify (probe (primaryModel config)))
    ∧ (fallbackOccurred r = false ↔
         Probe.success (probe (primaryModel config)) = true
         ∧ Js.lt (Probe.latency (probe (primaryModel config)))
                 LATENCY_THRESHOLD_MS = true)
    ∧ modelToUse r =
        Some (if Probe.success (probe (primaryModel config))
                 && Js.lt (Probe.latency (probe (primaryModel config)))
                          LATENCY_THRESHOLD_MS
              then primaryModel config else secondaryModel config).
Proof.
  intros Hid Hconfig Hprimary.
  rewrite (resolve_after_cycle_eq _ _ _ _ Hid Hconfig Hprimary).
  eexists. split; [reflexivity |].
  rewrite classify_status.
  destruct (Probe.success (probe (primaryModel config))),
    (Js.lt (Probe.latency (probe (primaryModel config)))
           LATENCY_THRESHOLD_MS); simpl;
    (split; [done |]); (split; [| done]);
    split; try done; intros; destruct_and?; done.
Qed.

Lemma resolve_after_cycle_witness :
  ∃ r,
    (resolve_model (updateAllModelsHealth one_fails initial)
                   (Some "sim-202-engineering")).1 = json r
    ∧ details r = Js.own (classify (one_fails "claude-3-sonnet"))
    ∧ (fallbackOccurred r = false ↔
         Probe.success (one_fails "claude-3-sonnet") = true
         ∧ Js.lt (Probe.latency (one_fails "claude-3-sonnet"))
                 LATENCY_THRESHOLD_MS = true)
    ∧ modelToUse r =
        Some (if Probe.success (one_fails "claude-3-sonnet")
                 && Js.lt (Probe.latency (one_fails "claude-3-sonnet"))
                          LATENCY_THRESHOLD_MS
              then "claude-3-sonnet" else "gpt-4o").
Proof.
  apply (resolve_after_cycle one_fails initial "sim-202-engineering"
           {| id := "sim-202-engineering";
              name := "Software Engineer Interview";
              primaryModel := "claude-3-sonnet";
              secondaryModel := "gpt-4o" |}).
  - done.
  - vm_compute. reflexivity.
  - eexists. vm_compute. reflexivity.
Defined.

(** X13. The running program with the checker of the source: after a cycle,
    a simulation of [simulationConfigs] gets its primary model exactly when
    the cycle's probe of that model succeeded, and its secondary model when
    the probe failed; the latency plays no part. *)
Theorem mock_end_to_end probe st simulationId config :
  reachable st →
  simulationConfigs !! simulationId = Some config →
  mockCheckLLMHealth (primaryModel config) (probe (primaryModel config)) →
  ∃ r,
    (resolve_model (updateAllModelsHealth probe st) (Some simulationId)).1
    = json r
    ∧ fallbackOccurred r = negb (Probe.success (probe (primaryModel config)))
    ∧ modelToUse r =
        Some (if Probe.success (probe (primaryModel config))
              then primaryModel config else secondaryModel config).
Proof.
  intros Hst Hconfig Hmock.
  destruct (not_inherited_configs _ _ Hconfig) as [Hid _].
  destruct (reachable_fallback_law _ _ _ Hst Hconfig) as (h & _ & Hh & _).
  apply reachable_dom in Hst as [Hconfigs _]. rewrite <- Hconfigs in Hconfig.
  rewrite (resolve_after_cycle_eq _ _ _ _ Hid Hconfig (mk_is_Some _ _ Hh)).
  eexists. split; [reflexivity |].
  rewrite classify_status, (mock_latency_test _ _ Hmock).
  by destruct (Probe.success (probe (primaryModel config))).
Qed.

Lemma mock_end_to_end_witness :
  ∃ r,
    (resolve_model (updateAllModelsHealth one_fails initial)
                   (Some "sim-101-finance")).1 = json r
    ∧ fallbackOccurred r = negb (Probe.success (one_fails "gpt-4o"))
    ∧ modelToUse r =
        Some (if Probe.success (one_fails "gpt-4o")
              then "gpt-4o" else "claude-3-sonnet").
Proof.
  apply (mock_end_to_end one_fails initial "sim-101-finance"
           {| id := "sim-101-finance";
              name := "Financial Analyst Interview";
              primaryModel := "gpt-4o";
              secondaryModel := "claude-3-sonnet" |}).
  - apply reachable_initial.
  - vm_compute. reflexivity.
  - change (one_fails "gpt-4o")
      with {| Probe.success := false;
              Probe.latency := Js.Finite (Qc_of_Z 5200) |}.
    apply mock_failure.
    + apply (proj1 (Z2Qc_inj_le 5000 5200)). lia.
    + apply (proj1 (Z2Qc_inj_le 5200 6000)). lia.
Defined.
